(** * ApprovalTests: the [TApprovals] front end (ApprovalTests/Approvals.h)

    A shallow embedding of the static methods of [TApprovals] and of the
    collaborators they call.  [Approvals.h] is embedded from its source;
    the classes it only includes (FileApprover, the namers, the reporters,
    the disposers, the scrubbers, Options) are modelled from the design
    document, each under a comment that says so.

    The process is a record of the file system, the ambient test, the
    process-wide defaults and the log of diff tools that were launched.
    A [void] method that may throw is a function from the process to a
    completion and the process it leaves behind. *)

From Equations Require Import Equations.
From Stdlib Require Import Ascii.
From stdpp Require Import gmap strings list pretty.

Local Open Scope string_scope.
Local Open Scope Z_scope.

(** ** Data model *)

(** Modelled from the spec: the Reporter capability of core/Reporter.h,
    [report(receivedPath, approvedPath)] and [isWorkingInThisEnvironment()].
    A reporter is known by its name and its answer in this environment. *)
Record Reporter := mkReporter {
  reporterName : string;
  isWorkingInThisEnvironment : bool
}.

(** Modelled from the spec: reporter invocation, an external tool launched
    with the two file paths as arguments.  The process keeps the list. *)
Record Launch := mkLaunch {
  launchedBy : Reporter;
  launchReceived : string;
  launchApproved : string
}.

(** Modelled from the spec: the three-operation Namer contract
    ([ApprovalNamer]), of which the engine uses the two paths. *)
Record ApprovalNamer := mkNamer {
  getApprovedFile : string -> string;
  getReceivedFile : string -> string
}.

(** Modelled from the spec: the ambient test identity (suite and case, with
    any qualifier) and the directory of the test, as the test framework
    provides them. *)
Record TestContext := mkContext {
  testDirectory : string;
  testIdentity : string
}.

(** Modelled from the spec: the [NamerCreator] that [useAsDefaultNamer]
    registers.  It builds a namer, and the namer it builds reads the ambient test and the
    configured subdirectory. *)
Definition NamerCreator : Type := TestContext -> string -> ApprovalNamer.

(** Modelled from the spec: the default registries (default namer, default
    reporter, front-loaded reporters, subdirectory of the baselines). *)
Record Defaults := mkDefaults {
  defaultNamer : NamerCreator;
  defaultReporter : Reporter;
  frontLoadedReporters : list Reporter;
  subdirectory : string
}.

(** The process: the ambient test, the default registries, the file system
    (path to bytes) and the tools launched so far. *)
Record Process := mkProcess {
  currentTest : TestContext;
  defaults : Defaults;
  files : gmap string string;
  launched : list Launch
}.

Definition withFiles (st : Process) (fs : gmap string string) : Process :=
  mkProcess (currentTest st) (defaults st) fs (launched st).

Definition withLaunched (st : Process) (ls : list Launch) : Process :=
  mkProcess (currentTest st) (defaults st) (files st) ls.

Definition withDefaults (st : Process) (d : Defaults) : Process :=
  mkProcess (currentTest st) d (files st) (launched st).

(** Modelled from the spec: the Writer ([ApprovalWriter]), which
    persists an artifact to a path under a declared file extension. *)
Record ApprovalWriter := mkWriter {
  getFileExtensionWithDot : string;
  write : string -> gmap string string -> gmap string string
}.

(** Modelled from the spec: [StringWriter], the writer of an in-memory
    string. *)
Definition StringWriter (contents fileExtensionWithDot : string) : ApprovalWriter :=
  mkWriter fileExtensionWithDot (fun path fs => <[path := contents]> fs).

(** Modelled from the spec: core/Options.h, the per-call configuration.
    Without a reporter of its own an Options value stands for the active
    default reporter. *)
Record Options := mkOptions {
  scrubber : string -> string;
  reporter : option Reporter;
  fileExtension : string
}.

(** Modelled from the spec: the scrubber of an Options value that was given
    none. *)
Definition doNothing (input : string) : string := input.

(** Modelled from the spec: [Options()], no scrubbing, the default reporter,
    text files. *)
Definition defaultOptions : Options := mkOptions doNothing None ".txt".

(** Modelled from the spec: [options.scrub(input)]. *)
Definition scrub (o : Options) (input : string) : string := scrubber o input.

(** Modelled from the spec: the mutators of Options return a new value. *)
Definition withScrubber (o : Options) (s : string -> string) : Options :=
  mkOptions s (reporter o) (fileExtension o).

Definition withReporter (o : Options) (r : Reporter) : Options :=
  mkOptions (scrubber o) (Some r) (fileExtension o).

(** Modelled from the spec: [options.getReporter()]. *)
Definition getReporter (o : Options) (st : Process) : Reporter :=
  match reporter o with
  | Some r => r
  | None => defaultReporter (defaults st)
  end.

(** ** Completions *)

(** What leaves a [void] call: it returns, or an exception escapes.  The
    engine fails a test with an exception that names both paths. *)
Inductive Exn :=
| ApprovalMismatch (received approved : string)
| Foreign (tag : string).

Inductive Completion :=
| Returns
| Raises (e : Exn).

Definition M : Type := Process -> Completion * Process.

(** The function under test handed to [verifyExceptionMessage]: it returns,
    throws something derived from [std::exception] (which has a [what()]),
    or throws anything else. *)
Inductive FunResult :=
| Returned
| ThrewStd (what : string)
| ThrewOther (tag : string).

Definition FunctionThatThrows : Type := Process -> FunResult * Process.

(** ** Namers *)

(** Modelled from the spec: namers/ApprovalTestNamer.h.  The baseline is
    [{directory}/{testIdentity}.approved.{ext}] and the output is
    [{directory}/{testIdentity}.received.{ext}], under the configured
    subdirectory when there is one; the extension comes with its dot. *)
Definition namerBase (ctx : TestContext) (subdir : string) : string :=
  testDirectory ctx +:+ "/" +:+
  (if decide (subdir = "") then "" else subdir +:+ "/") +:+
  testIdentity ctx.

(** Modelled from the spec: the default creator, which makes an
    [ApprovalTestNamer]. *)
Definition ApprovalTestNamer : NamerCreator :=
  fun ctx subdir =>
    mkNamer (fun ext => namerBase ctx subdir +:+ ".approved" +:+ ext)
            (fun ext => namerBase ctx subdir +:+ ".received" +:+ ext).

(** ** Reporters *)

(** Modelled from the spec: [reporter.report(received, approved)]. *)
Definition report (r : Reporter) (received approved : string) : Process -> Process :=
  fun st => withLaunched st (launched st ++ [mkLaunch r received approved]).

(** Modelled from the spec: the effective chain, front-loaded reporters in
    registration order and then the active reporter. *)
Definition reporterChain (st : Process) (r : Reporter) : list Reporter :=
  frontLoadedReporters (defaults st) ++ [r].

(** Modelled from the spec: first-match dispatch over the chain. *)
Fixpoint reportFirstWorking (chain : list Reporter) (received approved : string)
    (st : Process) : Process :=
  match chain with
  | [] => st
  | r :: rest =>
      if isWorkingInThisEnvironment r
      then report r received approved st
      else reportFirstWorking rest received approved st
  end.

(** ** The engine *)

Module FileApprover.

(** Modelled from the spec: reading a file; one that does not exist reads
    as the empty baseline. *)
Definition readFile (fs : gmap string string) (path : string) : string :=
  default "" (fs !! path).

(** Modelled from the spec: core/FileApprover.h,
    [verify(namer, writer, reporter)].  The received artifact is written
    first; the two files are compared byte for byte; a match removes the
    received file; a mismatch runs the reporter chain and fails. *)
Definition verify (n : ApprovalNamer) (w : ApprovalWriter) (r : Reporter) : M :=
  fun st =>
    let approvedPath := getApprovedFile n (getFileExtensionWithDot w) in
    let receivedPath := getReceivedFile n (getFileExtensionWithDot w) in
    let written := write w receivedPath (files st) in
    if decide (readFile written approvedPath = readFile written receivedPath)
    then (Returns, withFiles st (delete receivedPath written))
    else (Raises (ApprovalMismatch receivedPath approvedPath),
          reportFirstWorking (reporterChain st r) receivedPath approvedPath
            (withFiles st written)).

End FileApprover.

(** ** TApprovals *)

(** [DefaultNamerFactory::getDefaultNamer()()]: the registered creator is
    fetched and called. *)
Definition getDefaultNamer (st : Process) : ApprovalNamer :=
  defaultNamer (defaults st) (currentTest st) (subdirectory (defaults st)).

(** [verify(const std::string&, const Options&)] *)
Definition verify (contents : string) (options : Options) : M :=
  fun st =>
    let writer := StringWriter (scrub options contents) (fileExtension options) in
    FileApprover.verify (getDefaultNamer st) writer (getReporter options st) st.

(** [verify(const ApprovalWriter&, const Options&)] *)
Definition verify_writer (writer : ApprovalWriter) (options : Options) : M :=
  fun st =>
    FileApprover.verify (getDefaultNamer st) writer (getReporter options st) st.

(** [verify(const T&, const Options&)], with the compile-time converter. *)
Definition verify_T {T : Type} (toString : T -> string) (contents : T)
    (options : Options) : M :=
  verify (toString contents) options.

(** [verify(const T&, Function converter, const Options&)]: the converter
    writes to a fresh stream. *)
Definition verify_converter {T : Type} (converter : T -> string -> string)
    (contents : T) (options : Options) : M :=
  let s := converter contents "" in
  verify s options.

(** [verifyExceptionMessage] *)
Definition verifyExceptionMessage (functionThatThrows : FunctionThatThrows)
    (options : Options) : M :=
  fun st =>
    let message := "*** no exception thrown ***" in
    match functionThatThrows st with
    | (Returned, st') => verify message options st'
    | (ThrewStd what, st') => verify what options st'
    | (ThrewOther tag, st') => (Raises (Foreign tag), st')
    end.

(** ** Containers *)

(** The lambda of the vector overload counts in an [int]. *)
Definition INT_MAX : Z := 2147483647.

(** [i++] on a 32-bit [int]: two's-complement wrap-around where C++ leaves
    the overflow undefined. *)
Definition wrap_int (z : Z) : Z := (z + 2 ^ 31) mod 2 ^ 32 - 2 ^ 31.

(** ['\n'] *)
Definition newline : string := String (Ascii.ascii_of_nat 10) "".

(** An [int] as a stream in the classic locale writes it. *)
Definition classicInt (z : Z) : string := pretty z.

(** A converter writes to the stream it is given and may update what it
    captured by reference. *)
Definition Converter (T C : Type) : Type := T -> string -> C -> string * C.

Section VerifyAll.
Context {T : Type}.

(** [for (auto it = start; it != finish; ++it)] *)
Fixpoint forEach {C : Type} (converter : Converter T C) (range : list T)
    (s : string) (captured : C) : string * C :=
  match range with
  | [] => (s, captured)
  | x :: rest =>
      let '(s1, captured1) := converter x s captured in
      forEach converter rest (s1 +:+ newline) captured1
  end.

(** [verifyAll(header, start, finish, converter, options)] *)
Definition verifyAll_iter {C : Type} (header : string) (range : list T)
    (converter : Converter T C) (captured : C) (options : Options) : M :=
  let s := "" in
  let s := if decide (header = "") then s
           else s +:+ header +:+ newline +:+ newline +:+ newline in
  let '(s, _) := forEach converter range s captured in
  verify s options.

(** [verifyAll(header, list, converter, options)] *)
Definition verifyAll_container {C : Type} (header : string) (list : list T)
    (converter : Converter T C) (captured : C) (options : Options) : M :=
  verifyAll_iter header list converter captured options.

(** [operator<<(int)] of the stream: the text the stream writes for an
    [int].  It goes through the locale that was global when the stream was
    made; the classic locale writes the decimal digits ([classicInt]). *)
Variable formatInt : Z -> string.

Variable toString : T -> string.

(** [verifyAll(header, const std::vector<T>&, options)] *)
Definition verifyAll (header : string) (list : list T) (options : Options) : M :=
  let i := 0 in
  verifyAll_container header list
    (fun e s i => (s +:+ "[" +:+ formatInt i +:+ "] = " +:+ toString e, wrap_int (i + 1)))
    i options.

(** [verifyAll(const std::vector<T>&, options)] *)
Definition verifyAll_noheader (list : list T) (options : Options) : M :=
  verifyAll "" list options.

(** The text of a container as the specification words it: the header
    and three newlines unless the header is empty, then one line
    [[i] = element] per element, counted from 0, the index written as the
    stream writes an [int]. *)
Fixpoint renderElements (i : nat) (list : list T) : string :=
  match list with
  | [] => ""
  | e :: rest =>
      "[" +:+ formatInt (Z.of_nat i) +:+ "] = " +:+ toString e +:+ newline +:+
      renderElements (S i) rest
  end.

Definition renderAll (header : string) (list : list T) : string :=
  (if decide (header = "") then "" else header +:+ newline +:+ newline +:+ newline) +:+
  renderElements 0 list.

End VerifyAll.

(** ** Disposers *)

(** Modelled from the spec: namers/SubdirectoryDisposer.h,
    reporters/DefaultReporterDisposer.h, the front-loaded reporter disposer
    and namers/DefaultNamerDisposer.h.  A disposer holds the value that was
    current when it was constructed. *)
Inductive Disposer :=
| SubdirectoryDisposer (previous_result : string)
| DefaultReporterDisposer (previous_result : Reporter)
| FrontLoadedReporterDisposer (previous_result : list Reporter)
| DefaultNamerDisposer (previous_result : NamerCreator).

Definition setSubdirectory (d : Defaults) (s : string) : Defaults :=
  mkDefaults (defaultNamer d) (defaultReporter d) (frontLoadedReporters d) s.

Definition setDefaultReporter (d : Defaults) (r : Reporter) : Defaults :=
  mkDefaults (defaultNamer d) r (frontLoadedReporters d) (subdirectory d).

Definition setFrontLoadedReporters (d : Defaults) (rs : list Reporter) : Defaults :=
  mkDefaults (defaultNamer d) (defaultReporter d) rs (subdirectory d).

Definition setDefaultNamer (d : Defaults) (c : NamerCreator) : Defaults :=
  mkDefaults c (defaultReporter d) (frontLoadedReporters d) (subdirectory d).

(** [useApprovalsSubdirectory(subdirectory)] *)
Definition useApprovalsSubdirectory (subdir : string) (st : Process)
    : Disposer * Process :=
  (SubdirectoryDisposer (subdirectory (defaults st)),
   withDefaults st (setSubdirectory (defaults st) subdir)).

(** The default argument of [useApprovalsSubdirectory]. *)
Definition useApprovalsSubdirectory_default : Process -> Disposer * Process :=
  useApprovalsSubdirectory "approval_tests".

(** [useAsDefaultReporter(reporter)] *)
Definition useAsDefaultReporter (r : Reporter) (st : Process)
    : Disposer * Process :=
  (DefaultReporterDisposer (defaultReporter (defaults st)),
   withDefaults st (setDefaultReporter (defaults st) r)).

(** [useAsFrontLoadedReporter(reporter)] *)
Definition useAsFrontLoadedReporter (r : Reporter) (st : Process)
    : Disposer * Process :=
  (FrontLoadedReporterDisposer (frontLoadedReporters (defaults st)),
   withDefaults st
     (setFrontLoadedReporters (defaults st) (frontLoadedReporters (defaults st) ++ [r]))).

(** [useAsDefaultNamer(namerCreator)] *)
Definition useAsDefaultNamer (namerCreator : NamerCreator) (st : Process)
    : Disposer * Process :=
  (DefaultNamerDisposer (defaultNamer (defaults st)),
   withDefaults st (setDefaultNamer (defaults st) namerCreator)).

(** Modelled from the spec: the destructor of a disposer puts back the
    value it holds. *)
Definition dispose (d : Disposer) (st : Process) : Process :=
  match d with
  | SubdirectoryDisposer previous =>
      withDefaults st (setSubdirectory (defaults st) previous)
  | DefaultReporterDisposer previous =>
      withDefaults st (setDefaultReporter (defaults st) previous)
  | FrontLoadedReporterDisposer previous =>
      withDefaults st (setFrontLoadedReporters (defaults st) previous)
  | DefaultNamerDisposer previous =>
      withDefaults st (setDefaultNamer (defaults st) previous)
  end.

(** ** Test code with scoped overrides *)

Inductive Override :=
| UseApprovalsSubdirectory (subdir : string)
| UseAsDefaultReporter (r : Reporter)
| UseAsFrontLoadedReporter (r : Reporter)
| UseAsDefaultNamer (namerCreator : NamerCreator).

Definition install (ov : Override) : Process -> Disposer * Process :=
  match ov with
  | UseApprovalsSubdirectory subdir => useApprovalsSubdirectory subdir
  | UseAsDefaultReporter r => useAsDefaultReporter r
  | UseAsFrontLoadedReporter r => useAsFrontLoadedReporter r
  | UseAsDefaultNamer c => useAsDefaultNamer c
  end.

(** Test code: verifications, thrown exceptions, sequences, handlers, and
    blocks [{ auto d = Approvals::useAs...(v); body }]. *)
Inductive Block :=
| Verify (contents : string) (options : Options)
| VerifyWriter (writer : ApprovalWriter) (options : Options)
| Throw (tag : string)
| Seq (first second : Block)
| TryCatch (body handler : Block)
| Scoped (ov : Override) (body : Block).

(** The destructor of the disposer runs when the block is left, on return
    and during unwinding alike. *)
Fixpoint run (b : Block) : M :=
  fun st =>
    match b with
    | Verify contents options => verify contents options st
    | VerifyWriter writer options => verify_writer writer options st
    | Throw tag => (Raises (Foreign tag), st)
    | Seq first second =>
        match run first st with
        | (Returns, st1) => run second st1
        | (Raises e, st1) => (Raises e, st1)
        end
    | TryCatch body handler =>
        match run body st with
        | (Returns, st1) => (Returns, st1)
        | (Raises _, st1) => run handler st1
        end
    | Scoped ov body =>
        let '(d, st1) := install ov st in
        let '(c, st2) := run body st1 in
        (c, dispose d st2)
    end.

(** Overrides installed one after the other; the newest disposer is on top. *)
Fixpoint installAll (ovs : list Override) (stack : list Disposer) (st : Process)
    : list Disposer * Process :=
  match ovs with
  | [] => (stack, st)
  | ov :: rest =>
      let '(d, st1) := install ov st in
      installAll rest (d :: stack) st1
  end.

(** [n] scopes left, innermost first. *)
Fixpoint unwind (n : nat) (stack : list Disposer) (st : Process)
    : list Disposer * Process :=
  match n, stack with
  | S k, d :: below => unwind k below (dispose d st)
  | _, _ => (stack, st)
  end.

(** ** Scrubbers *)

(** Modelled from the spec: the patterns of the regex-based substitution
    of scrubbers/Scrubbers.h: single characters, any character, character
    ranges, sequence, choice and repetition.  [Void] matches nothing and
    [Eps] the empty text. *)
Inductive Regex :=
| Void
| Eps
| Chr (c : Ascii.ascii)
| AnyChar
| Range (lo hi : Ascii.ascii)
| Cat (r1 r2 : Regex)
| Alt (r1 r2 : Regex)
| Star (r : Regex).

(** The pattern that matches one text, character by character. *)
Fixpoint literal (text : string) : Regex :=
  match text with
  | "" => Eps
  | String c rest => Cat (Chr c) (literal rest)
  end.

(** One or more repetitions. *)
Definition Plus (r : Regex) : Regex := Cat r (Star r).

Definition inRange (lo hi c : Ascii.ascii) : bool :=
  (Ascii.nat_of_ascii lo <=? Ascii.nat_of_ascii c)%nat &&
  (Ascii.nat_of_ascii c <=? Ascii.nat_of_ascii hi)%nat.

(** Does the pattern match the empty text? *)
Fixpoint nullable (r : Regex) : bool :=
  match r with
  | Void | Chr _ | AnyChar | Range _ _ => false
  | Eps | Star _ => true
  | Cat r1 r2 => nullable r1 && nullable r2
  | Alt r1 r2 => nullable r1 || nullable r2
  end.

(** What is left of the pattern once [c] has been read. *)
Fixpoint deriv (c : Ascii.ascii) (r : Regex) : Regex :=
  match r with
  | Void | Eps => Void
  | Chr d => if decide (c = d) then Eps else Void
  | AnyChar => Eps
  | Range lo hi => if inRange lo hi c then Eps else Void
  | Cat r1 r2 =>
      Alt (Cat (deriv c r1) r2) (if nullable r1 then deriv c r2 else Void)
  | Alt r1 r2 => Alt (deriv c r1) (deriv c r2)
  | Star r1 => Cat (deriv c r1) (Star r1)
  end.

(** The length of the longest match of the pattern at the head of [s]. *)
Fixpoint matchEnd (r : Regex) (s : string) : option nat :=
  match s with
  | "" => if nullable r then Some 0%nat else None
  | String c rest =>
      match matchEnd (deriv c r) rest with
      | Some n => Some (S n)
      | None => if nullable r then Some 0%nat else None
      end
  end.

Fixpoint takeString (n : nat) (s : string) : string :=
  match n, s with
  | S k, String c rest => String c (takeString k rest)
  | _, _ => ""
  end.

Fixpoint dropString (n : nat) (s : string) : string :=
  match n, s with
  | S k, String c rest => dropString k rest
  | _, _ => s
  end.

(** Where several texts match at one place the engine reports one of them,
    and which one depends on its grammar (the longest for POSIX, the first
    its backtracking finds for ECMAScript).  A policy gives, for the
    pattern, the text at the place of the match and the number of
    characters the longest match takes behind its first, the number the
    reported match takes behind its first. *)
Definition MatchPolicy : Type := Regex -> string -> nat -> nat.

Definition longestMatch : MatchPolicy := fun _ _ longest => longest.

(** The leftmost match that is not empty: what precedes it, the match and
    what follows it. *)
Fixpoint search (policy : MatchPolicy) (r : Regex) (s : string)
    : option (string * string * string) :=
  match s with
  | "" => None
  | String c rest =>
      match matchEnd (deriv c r) rest with
      | Some n =>
          let k := policy r s n in
          Some ("", String c (takeString k rest), dropString k rest)
      | None =>
          match search policy r rest with
          | Some (pre, m, suf) => Some (String c pre, m, suf)
          | None => None
          end
      end
  end.


(** Modelled from the spec: the regex-based substitution of
    scrubbers/Scrubbers.h.  Every match, leftmost first, gives way to the
    replacement, and the search goes on behind the match. *)
Equations? scrubRegex (policy : MatchPolicy) (r : Regex)
    (replacement input : string) : string
    by wf (String.length input) lt :=
  scrubRegex policy r replacement input
    with Logic.inspect (search policy r input) := {
    | exist _ (Some found) _ =>
        found.1.1 +:+ replacement +:+ scrubRegex policy r replacement found.2
    | exist _ None _ => input }.
Proof.
  assert (dropped : forall n s, (String.length (dropString n s) <= String.length s)%nat).
  { induction n as [|n IH]; intros [|c s]; simpl; try lia.
    specialize (IH s). lia. }
  clear scrubRegex. revert found e.
  induction input as [|c rest IH]; intros found; simpl; [done|].
  destruct (matchEnd (deriv c r) rest) as [n|].
  - intros [= <-]. simpl.
    specialize (dropped (policy r (String c rest) n) rest). lia.
  - destruct (search policy r rest) as [[[pre m] suf]|]; [|done].
    intros [= <-]. simpl. specialize (IH _ eq_refl). simpl in IH. lia.
Qed.

(** Modelled from the spec: a parameterized substitution scrubber. *)
Definition createRegexScrubber (policy : MatchPolicy) (pattern : Regex)
    (replacement : string) : string -> string :=
  scrubRegex policy pattern replacement.

(** A pattern without a match. *)
Fixpoint isVoid (r : Regex) : bool :=
  match r with
  | Void => true
  | Cat r1 r2 => isVoid r1 || isVoid r2
  | Alt r1 r2 => isVoid r1 && isVoid r2
  | _ => false
  end.

(** The characters a match of the pattern can hold. *)
Fixpoint inAlphabet (r : Regex) (c : Ascii.ascii) : bool :=
  match r with
  | Void | Eps => false
  | Chr d => bool_decide (c = d)
  | AnyChar => true
  | Range lo hi => inRange lo hi c
  | Cat r1 r2 | Alt r1 r2 => inAlphabet r1 c || inAlphabet r2 c
  | Star r1 => inAlphabet r1 c
  end.

Fixpoint allChars (P : Ascii.ascii -> bool) (s : string) : bool :=
  match s with
  | "" => true
  | String c rest => P c && allChars P rest
  end.


Fixpoint occursIn (a : Ascii.ascii) (s : string) : bool :=
  match s with
  | "" => false
  | String c rest => if decide (a = c) then true else occursIn a rest
  end.

(** A placeholder that cannot take part in a match: the pattern does not
    match the empty text, the first character of the placeholder cannot
    occur in a match, and no character of the placeholder can begin one. *)
Definition placeholderSafe (pattern : Regex) (replacement : string) : bool :=
  negb (nullable pattern) &&
  match replacement with
  | "" => false
  | String a _ =>
      negb (inAlphabet pattern a) &&
      allChars (fun b => isVoid (deriv b pattern)) replacement
  end.


(** ** A process to run the examples in *)

Definition diffTool : Reporter := mkReporter "diff" true.

Definition process0 : Process :=
  mkProcess (mkContext "tests" "Suite.case")
            (mkDefaults ApprovalTestNamer diffTool [] "")
            ∅ [].



Definition timestampScrubber : string -> string :=
  createRegexScrubber longestMatch (literal "2023-01-01T00:00:00Z") "<TIME>".

(** The two paths of a verification under the default namer. *)
Definition approvedPathOf (st : Process) (options : Options) : string :=
  getApprovedFile (getDefaultNamer st) (fileExtension options).

Definition receivedPathOf (st : Process) (options : Options) : string :=
  getReceivedFile (getDefaultNamer st) (fileExtension options).

(** The timestamp scenario: the baseline holds [X], the test produces a
    timestamped line, the scrubber replaces the timestamp. *)
Definition scenarioOptions : Options := withScrubber defaultOptions timestampScrubber.

Definition scenarioRaw : string := "2023-01-01T00:00:00Z:X".

Definition scenarioProcess : Process :=
  withFiles process0 {[ approvedPathOf process0 scenarioOptions := "X" ]}.

(** ** The text a container overload verifies *)

Section ContainerText.
Context {T : Type}.

(** The contents of the stream of
    [verifyAll(header, start, finish, converter, options)] when the loop is
    over, which is what it hands to [verify]. *)
Definition streamed {C : Type} (header : string) (range : list T)
    (converter : Converter T C) (captured : C) : string :=
  let s := "" in
  let s := if decide (header = "") then s
           else s +:+ header +:+ newline +:+ newline +:+ newline in
  (forEach converter range s captured).1.

(** The lambda of the vector overload, with the [int] it captures. *)
Definition indexedConverter (formatInt : Z -> string) (toString : T -> string)
    : Converter T Z :=
  fun e s i => (s +:+ "[" +:+ formatInt i +:+ "] = " +:+ toString e, wrap_int (i + 1)).


End ContainerText.

(** A text with a line break in it. *)
Definition hasNewline (s : string) : bool := occursIn (Ascii.ascii_of_nat 10) s.

(** * Properties *)

(** ** Strings *)

Lemma append_String c s t : String c s +:+ t = String c (s +:+ t).
Proof. reflexivity. Qed.

Lemma append_assoc (s t u : string) : (s +:+ t) +:+ u = s +:+ t +:+ u.
Proof.
  induction s as [|c s IH]; [done|].
  by rewrite !append_String, IH.
Qed.

Lemma append_empty_r (s : string) : s +:+ "" = s.
Proof. induction s as [|c s IH]; [done|]. by rewrite append_String, IH. Qed.

(** ** What a verification leaves untouched *)

Section Frame.
Variables (received approved : string).

Lemma reportFirstWorking_defaults chain st :
  defaults (reportFirstWorking chain received approved st) = defaults st.
Proof.
  induction chain as [|r chain IH]; simpl; [done|].
  by destruct (isWorkingInThisEnvironment r).
Qed.

Lemma reportFirstWorking_currentTest chain st :
  currentTest (reportFirstWorking chain received approved st) = currentTest st.
Proof.
  induction chain as [|r chain IH]; simpl; [done|].
  by destruct (isWorkingInThisEnvironment r).
Qed.

Lemma reportFirstWorking_files chain st :
  files (reportFirstWorking chain received approved st) = files st.
Proof.
  induction chain as [|r chain IH]; simpl; [done|].
  by destruct (isWorkingInThisEnvironment r).
Qed.
End Frame.

Lemma FileApprover_verify_frame n w r st :
  defaults (FileApprover.verify n w r st).2 = defaults st ∧
  currentTest (FileApprover.verify n w r st).2 = currentTest st.
Proof.
  unfold FileApprover.verify. case_decide; simpl; [done|].
  by rewrite reportFirstWorking_defaults, reportFirstWorking_currentTest.
Qed.

Lemma install_currentTest ov st : currentTest (install ov st).2 = currentTest st.
Proof. by destruct ov. Qed.

Lemma dispose_currentTest d st : currentTest (dispose d st) = currentTest st.
Proof. by destruct d. Qed.

(** Leaving a scope undoes what entering it did to the defaults, whatever
    the body did to the rest of the process. *)
Lemma dispose_install ov st st' :
  defaults st' = defaults (install ov st).2 ->
  defaults (dispose (install ov st).1 st') = defaults st.
Proof.
  destruct st as [ctx [nm rp fl sd] fs ls].
  destruct ov; simpl; intros ->; reflexivity.
Qed.

Lemma run_frame b : forall st,
  defaults (run b st).2 = defaults st ∧ currentTest (run b st).2 = currentTest st.
Proof.
  induction b as [contents options|writer options|tag|b1 IH1 b2 IH2
                 |body IHb handler IHh|ov body IH]; intros st; simpl.
  - apply FileApprover_verify_frame.
  - apply FileApprover_verify_frame.
  - done.
  - destruct (IH1 st) as [Hd Hc]. destruct (run b1 st) as [[|e] st1]; simpl in *.
    + destruct (IH2 st1) as [Hd2 Hc2]. by rewrite Hd2, Hc2.
    + done.
  - destruct (IHb st) as [Hd Hc]. destruct (run body st) as [[|e] st1]; simpl in *.
    + done.
    + destruct (IHh st1) as [Hd2 Hc2]. by rewrite Hd2, Hc2.
  - pose proof (install_currentTest ov st) as Hi.
    pose proof (dispose_install ov st) as Hdi.
    destruct (install ov st) as [d st1]; simpl in *.
    destruct (IH st1) as [Hd Hc]. destruct (run body st1) as [c st2]; simpl in *.
    split; [by apply Hdi|]. by rewrite dispose_currentTest, Hc.
Qed.

(** ** The engine on a string artifact *)

Section Engine.
Variables (n : ApprovalNamer) (r : Reporter) (contents ext : string).
Let approvedPath := getApprovedFile n ext.
Let receivedPath := getReceivedFile n ext.

(** With the received artifact in place the baseline reads as before,
    unless both names are one file. *)
Lemma readFile_written fs path :
  FileApprover.readFile (<[receivedPath := contents]> fs) path =
  if decide (receivedPath = path) then contents else FileApprover.readFile fs path.
Proof.
  unfold FileApprover.readFile. case_decide as Hp.
  - subst path. by rewrite lookup_insert_eq.
  - by rewrite lookup_insert_ne.
Qed.

Lemma readFile_received fs :
  FileApprover.readFile (<[receivedPath := contents]> fs) receivedPath = contents.
Proof. unfold FileApprover.readFile. by rewrite lookup_insert_eq. Qed.

Lemma FileApprover_verify_match st :
  FileApprover.readFile (<[receivedPath := contents]> (files st)) approvedPath = contents ->
  FileApprover.verify n (StringWriter contents ext) r st =
  (Returns, withFiles st (delete receivedPath (files st))).
Proof.
  intros Hm. unfold FileApprover.verify. simpl.
  fold approvedPath receivedPath.
  rewrite Hm, readFile_received, decide_True by done.
  by rewrite delete_insert_eq.
Qed.

Lemma FileApprover_verify_mismatch st :
  FileApprover.readFile (<[receivedPath := contents]> (files st)) approvedPath ≠ contents ->
  FileApprover.verify n (StringWriter contents ext) r st =
  (Raises (ApprovalMismatch receivedPath approvedPath),
   reportFirstWorking (reporterChain st r) receivedPath approvedPath
     (withFiles st (<[receivedPath := contents]> (files st)))).
Proof.
  intros Hm. unfold FileApprover.verify. simpl.
  fold approvedPath receivedPath.
  by rewrite readFile_received, decide_False.
Qed.

(** The received file after the engine has run: gone on a match, the
    artifact of the writer on a mismatch. *)
Lemma FileApprover_verify_received st :
  files (FileApprover.verify n (StringWriter contents ext) r st).2 !! receivedPath =
  if decide (FileApprover.readFile (<[receivedPath := contents]> (files st)) approvedPath
             = contents)
  then None else Some contents.
Proof.
  case_decide as Hm.
  - rewrite FileApprover_verify_match by done. simpl. apply lookup_delete_eq.
  - rewrite FileApprover_verify_mismatch by done. simpl.
    rewrite reportFirstWorking_files. simpl. apply lookup_insert_eq.
Qed.

Lemma baseline_matches st :
  files st !! approvedPath = Some contents ->
  FileApprover.readFile (<[receivedPath := contents]> (files st)) approvedPath = contents.
Proof.
  intros Ha. rewrite readFile_written. case_decide; [done|].
  unfold FileApprover.readFile. by rewrite Ha.
Qed.
End Engine.

(** ** verify: what reaches the received file *)

Lemma verify_eq_engine contents options st :
  verify contents options st =
  FileApprover.verify (getDefaultNamer st)
    (StringWriter (scrub options contents) (fileExtension options))
    (getReporter options st) st.
Proof. reflexivity. Qed.

(** C1, as the code has it: when [verify(contents, options)] fails, the
    received file holds [options.scrub(contents)], the scrubbed text and not
    the raw one, and that same text is what differed from the baseline. *)
Theorem verify_persists_scrubbed contents options st e st' :
  verify contents options st = (Raises e, st') ->
  files st' !! receivedPathOf st options = Some (scrub options contents) ∧
  e = ApprovalMismatch (receivedPathOf st options) (approvedPathOf st options) ∧
  FileApprover.readFile
    (<[receivedPathOf st options := scrub options contents]> (files st))
    (approvedPathOf st options) ≠ scrub options contents.
Proof.
  rewrite verify_eq_engine. intros Hv.
  destruct (decide (FileApprover.readFile
    (<[receivedPathOf st options := scrub options contents]> (files st))
    (approvedPathOf st options) = scrub options contents)) as [Hm|Hm].
  - rewrite FileApprover_verify_match in Hv by exact Hm. discriminate.
  - rewrite FileApprover_verify_mismatch in Hv by exact Hm.
    injection Hv as <- <-. split; [|done].
    rewrite reportFirstWorking_files. simpl. apply lookup_insert_eq.
Qed.

Lemma verify_persists_scrubbed_witness :
  files (verify scenarioRaw scenarioOptions scenarioProcess).2
    !! receivedPathOf scenarioProcess scenarioOptions = Some "<TIME>:X".
Proof.
  apply (verify_persists_scrubbed scenarioRaw scenarioOptions scenarioProcess
           (ApprovalMismatch (receivedPathOf scenarioProcess scenarioOptions)
                             (approvedPathOf scenarioProcess scenarioOptions))
           (verify scenarioRaw scenarioOptions scenarioProcess).2).
  vm_compute. reflexivity.
Defined.

(** C1 as stated fails: in the timestamp scenario the received file holds
    the scrubbed line, not the raw one. *)
Lemma verify_persists_raw_counterexample :
  files (verify scenarioRaw scenarioOptions scenarioProcess).2
    !! receivedPathOf scenarioProcess scenarioOptions = Some "<TIME>:X" ∧
  files (verify scenarioRaw scenarioOptions scenarioProcess).2
    !! receivedPathOf scenarioProcess scenarioOptions ≠ Some scenarioRaw.
Proof. split; [by vm_compute|]. vm_compute. discriminate. Qed.

(** ** verify against a matching baseline *)

Lemma getDefaultNamer_withFiles st fs :
  getDefaultNamer (withFiles st fs) = getDefaultNamer st.
Proof. reflexivity. Qed.

(** C7: when the baseline exists and holds the scrubbed text, [verify]
    returns and no received file is left; run again on what the first run
    left, it returns again and again leaves no received file. *)
Theorem verify_matching_baseline contents options st :
  files st !! approvedPathOf st options = Some (scrub options contents) ->
  (verify contents options st).1 = Returns ∧
  files (verify contents options st).2 !! receivedPathOf st options = None ∧
  (verify contents options (verify contents options st).2).1 = Returns ∧
  files (verify contents options (verify contents options st).2).2
    !! receivedPathOf st options = None.
Proof.
  intros Ha. unfold approvedPathOf, receivedPathOf in *.
  rewrite !verify_eq_engine.
  rewrite (FileApprover_verify_match _ _ _ _ st) by (by apply baseline_matches).
  simpl. rewrite !getDefaultNamer_withFiles.
  split; [done|]. split; [apply lookup_delete_eq|].
  assert (FileApprover.readFile
            (<[getReceivedFile (getDefaultNamer st) (fileExtension options)
                 := scrub options contents]>
               (delete (getReceivedFile (getDefaultNamer st) (fileExtension options))
                  (files st)))
            (getApprovedFile (getDefaultNamer st) (fileExtension options))
          = scrub options contents) as Hm.
  { rewrite readFile_written. case_decide as Hp; [done|].
    unfold FileApprover.readFile. by rewrite lookup_delete_ne, Ha. }
  change (getReporter options (withFiles st ?fs)) with (getReporter options st).
  rewrite FileApprover_verify_match by exact Hm.
  simpl. split; [done|]. apply lookup_delete_eq.
Qed.

Lemma verify_matching_baseline_witness :
  (verify "A" defaultOptions
     (withFiles process0 {[ approvedPathOf process0 defaultOptions := "A" ]})).1 = Returns.
Proof.
  apply (verify_matching_baseline "A" defaultOptions
           (withFiles process0 {[ approvedPathOf process0 defaultOptions := "A" ]})).
  vm_compute. reflexivity.
Defined.

(** ** verify on a writer *)

(** C8: [verify(writer, options)] does not look at the scrubber of its
    options; a string writer's text reaches the comparison and the received
    file as it is; the string overload is the writer overload on the
    scrubbed text, and in the timestamp scenario the two leave different
    received files. *)
Theorem verify_writer_ignores_scrubber :
  (forall writer options s st,
     verify_writer writer (withScrubber options s) st = verify_writer writer options st) ∧
  (forall contents ext options st,
     files (verify_writer (StringWriter contents ext) options st).2
       !! getReceivedFile (getDefaultNamer st) ext =
     if decide (FileApprover.readFile
                  (<[getReceivedFile (getDefaultNamer st) ext := contents]> (files st))
                  (getApprovedFile (getDefaultNamer st) ext) = contents)
     then None else Some contents) ∧
  (forall contents options st,
     verify contents options st =
     verify_writer (StringWriter (scrub options contents) (fileExtension options))
       options st) ∧
  files (verify_writer (StringWriter scenarioRaw ".txt") scenarioOptions scenarioProcess).2
    !! receivedPathOf scenarioProcess scenarioOptions = Some scenarioRaw ∧
  files (verify scenarioRaw scenarioOptions scenarioProcess).2
    !! receivedPathOf scenarioProcess scenarioOptions = Some (timestampScrubber scenarioRaw).
Proof.
  split; [reflexivity|]. split; [|split; [reflexivity|]].
  - intros contents ext options st. unfold verify_writer.
    apply FileApprover_verify_received.
  - split; by vm_compute.
Qed.

(** ** verifyExceptionMessage *)

(** The engine fails with a mismatch and with nothing else. *)
Lemma verify_completion contents options st :
  (verify contents options st).1 = Returns ∨
  (verify contents options st).1 =
    Raises (ApprovalMismatch (receivedPathOf st options) (approvedPathOf st options)).
Proof.
  rewrite verify_eq_engine. unfold FileApprover.verify.
  case_decide; [by left|by right].
Qed.

(** C2: an exception derived from [std::exception] does not leave
    [verifyExceptionMessage]; its [what()] is verified by [verify], in the
    process the function left behind. *)
Theorem verifyExceptionMessage_catches f options st what st' :
  f st = (ThrewStd what, st') ->
  verifyExceptionMessage f options st = verify what options st' ∧
  forall tag, (verifyExceptionMessage f options st).1 ≠ Raises (Foreign tag).
Proof.
  intros Hf. unfold verifyExceptionMessage. rewrite Hf. split; [done|].
  intros tag. by destruct (verify_completion what options st') as [-> | ->].
Qed.

Lemma verifyExceptionMessage_catches_witness :
  verifyExceptionMessage (fun st => (ThrewStd "boom", st)) defaultOptions process0 =
  verify "boom" defaultOptions process0.
Proof.
  apply (verifyExceptionMessage_catches (fun st => (ThrewStd "boom", st))
           defaultOptions process0 "boom" process0).
  reflexivity.
Defined.

(** C9: when the function returns, the text verified is the placeholder
    [*** no exception thrown ***]; an exception that does not derive from
    [std::exception] leaves [verifyExceptionMessage] and nothing is
    verified. *)
Theorem verifyExceptionMessage_no_exception f options st :
  (forall st', f st = (Returned, st') ->
     verifyExceptionMessage f options st =
     verify "*** no exception thrown ***" options st') ∧
  (forall tag st', f st = (ThrewOther tag, st') ->
     verifyExceptionMessage f options st = (Raises (Foreign tag), st')).
Proof.
  unfold verifyExceptionMessage.
  split; [intros st' Hf|intros tag st' Hf]; by rewrite Hf.
Qed.

Lemma verifyExceptionMessage_no_exception_witness :
  verifyExceptionMessage (fun st => (Returned, st)) defaultOptions process0 =
    verify "*** no exception thrown ***" defaultOptions process0 ∧
  verifyExceptionMessage (fun st => (ThrewOther "int", st)) defaultOptions process0 =
    (Raises (Foreign "int"), process0).
Proof.
  split.
  - apply (verifyExceptionMessage_no_exception (fun st => (Returned, st))
             defaultOptions process0). reflexivity.
  - apply (verifyExceptionMessage_no_exception (fun st => (ThrewOther "int", st))
             defaultOptions process0). reflexivity.
Defined.

(** ** verifyAll *)

Lemma wrap_int_in_range z :
  - 2 ^ 31 <= z <= INT_MAX -> wrap_int z = z.
Proof.
  unfold wrap_int, INT_MAX. intros Hz.
  rewrite Z.mod_small by lia. lia.
Qed.

Section VerifyAllText.
Context {T : Type} (formatInt : Z -> string) (toString : T -> string).

Let indexed : Converter T Z :=
  fun e s i => (s +:+ "[" +:+ formatInt i +:+ "] = " +:+ toString e, wrap_int (i + 1)).

(** The loop appends to the stream what the documentation describes, as
    long as the counter stays an [int]. *)
Lemma forEach_renderElements list : forall (s : string) (i : nat),
  Z.of_nat i + Z.of_nat (length list) <= INT_MAX ->
  (forEach indexed list s (Z.of_nat i)).1 =
  s +:+ renderElements formatInt toString i list.
Proof.
  induction list as [|e rest IH]; intros s i Hi; simpl.
  - by rewrite append_empty_r.
  - rewrite wrap_int_in_range by (unfold INT_MAX in *; simpl in Hi; lia).
    replace (Z.of_nat i + 1) with (Z.of_nat (S i)) by lia.
    rewrite IH by (simpl in Hi; lia).
    by rewrite !append_assoc.
Qed.

(** C10: on a vector of at most [INT_MAX] elements [verifyAll] verifies
    the header block (absent for an empty header) followed by one line
    [[i] = toString(e)] per element, counted from 0, with [i] as the stream
    writes an [int] (its decimal digits in the classic locale); without a
    header it is [verifyAll] on the empty header. *)
Theorem verifyAll_text header list options st :
  Z.of_nat (length list) <= INT_MAX ->
  verifyAll formatInt toString header list options st =
    verify (renderAll formatInt toString header list) options st ∧
  verifyAll_noheader formatInt toString list options st =
    verifyAll formatInt toString "" list options st.
Proof.
  intros Hlen. split; [|reflexivity].
  unfold verifyAll, verifyAll_container, verifyAll_iter, renderAll.
  fold indexed.
  pose proof (forEach_renderElements list
    (if decide (header = "") then ""
     else "" +:+ header +:+ newline +:+ newline +:+ newline) 0 Hlen) as Hs.
  change (Z.of_nat 0) with 0 in Hs.
  destruct (forEach indexed list _ 0) as [s captured]. simpl in Hs. subst s.
  by case_decide.
Qed.
End VerifyAllText.

Lemma verifyAll_text_witness :
  verifyAll classicInt (fun s : string => s) "letters" ["a"; "b"] defaultOptions process0 =
  verify ("letters" +:+ newline +:+ newline +:+ newline +:+
          "[0] = a" +:+ newline +:+ "[1] = b" +:+ newline) defaultOptions process0.
Proof.
  apply (verifyAll_text classicInt (fun s : string => s) "letters" ["a"; "b"]
           defaultOptions process0).
  vm_compute. discriminate.
Defined.

(** ** Disposers *)

Lemma dispose_install_process ov st :
  dispose (install ov st).1 (install ov st).2 = st.
Proof.
  destruct st as [ctx [nm rp fl sd] fs ls]. by destruct ov.
Qed.

Lemma unwind_nil n st : unwind n [] st = ([], st).
Proof. by destruct n. Qed.

Lemma unwind_add a : forall b stack st,
  unwind (a + b) stack st =
  unwind b (unwind a stack st).1 (unwind a stack st).2.
Proof.
  induction a as [|a IH]; intros b stack st; [done|].
  destruct stack as [|d below]; simpl.
  - by rewrite unwind_nil.
  - apply IH.
Qed.

Lemma installAll_app ovs1 : forall ovs2 stack st,
  installAll (ovs1 ++ ovs2) stack st =
  installAll ovs2 (installAll ovs1 stack st).1 (installAll ovs1 stack st).2.
Proof.
  induction ovs1 as [|ov ovs1 IH]; intros ovs2 stack st; simpl; [done|].
  destruct (install ov st) as [d st1]. apply IH.
Qed.

(** Leaving as many scopes as were entered, innermost first, gives back the
    stack and the process from before the first of them. *)
Lemma unwind_installAll ovs : forall stack st,
  unwind (length ovs) (installAll ovs stack st).1 (installAll ovs stack st).2 =
  (stack, st).
Proof.
  induction ovs as [|ov ovs IH]; intros stack st; [done|].
  cbn [installAll length].
  pose proof (dispose_install_process ov st) as Hd.
  destruct (install ov st) as [d st1]; simpl in Hd.
  replace (S (length ovs)) with (length ovs + 1)%nat by lia.
  rewrite unwind_add, IH. simpl. by rewrite Hd.
Qed.

(** C3: when a scope is left, on return or by an exception, the defaults
    (namer, reporter, front-loaded reporters, subdirectory) are those from
    before the scope, however scopes nest in its body; and leaving the
    last-entered scopes first gives back, step by step, the process as it
    was when only the earlier ones had been entered. *)
Theorem disposers_restore :
  (forall ov body st, defaults (run (Scoped ov body) st).2 = defaults st) ∧
  (forall ovs1 ovs2 st,
     unwind (length ovs2) (installAll (ovs1 ++ ovs2) [] st).1
                          (installAll (ovs1 ++ ovs2) [] st).2 =
     installAll ovs1 [] st).
Proof.
  split.
  - intros ov body st. apply run_frame.
  - intros ovs1 ovs2 st. rewrite installAll_app, unwind_installAll.
    by destruct (installAll ovs1 [] st).
Qed.

(** Two nested reporter overrides, the inner one left by an exception:
    inside, the inner reporter is active; after the inner scope the outer
    one; after both the original default. *)
Example nested_reporter_overrides :
  let r1 := mkReporter "R1" true in
  let r2 := mkReporter "R2" true in
  let inner := (install (UseAsDefaultReporter r2)
                  (install (UseAsDefaultReporter r1) process0).2) in
  defaultReporter (defaults inner.2) = r2 ∧
  defaultReporter (defaults (dispose inner.1 inner.2)) = r1 ∧
  run (Scoped (UseAsDefaultReporter r1)
         (Scoped (UseAsDefaultReporter r2) (Throw "stop"))) process0 =
  (Raises (Foreign "stop"), process0).
Proof. repeat split. Qed.

(** ** Reporters *)

Lemma reportFirstWorking_first before rk after received approved st :
  Forall (fun r => isWorkingInThisEnvironment r = false) before ->
  isWorkingInThisEnvironment rk = true ->
  reportFirstWorking (before ++ rk :: after) received approved st =
  report rk received approved st.
Proof.
  intros Hb Hk. induction Hb as [|r before Hr _ IH]; simpl.
  - by rewrite Hk.
  - by rewrite Hr.
Qed.

(** C4: on a mismatch, when the reporter at position [k] of the chain
    (front-loaded reporters, then the active reporter) is the only one that
    works in this environment, exactly one tool is launched, by that
    reporter, on the two paths. *)
Theorem first_match_reporter n w r st (k : nat) rk :
  let approvedPath := getApprovedFile n (getFileExtensionWithDot w) in
  let receivedPath := getReceivedFile n (getFileExtensionWithDot w) in
  let written := write w receivedPath (files st) in
  reporterChain st r !! k = Some rk ->
  isWorkingInThisEnvironment rk = true ->
  (forall j rj, j ≠ k -> reporterChain st r !! j = Some rj ->
     isWorkingInThisEnvironment rj = false) ->
  FileApprover.readFile written approvedPath ≠ FileApprover.readFile written receivedPath ->
  launched (FileApprover.verify n w r st).2 =
  (launched st ++ [mkLaunch rk receivedPath approvedPath])%list.
Proof.
  intros approvedPath receivedPath written Hk Hwork Hothers Hmis.
  unfold FileApprover.verify. fold approvedPath receivedPath written.
  rewrite decide_False by done. simpl.
  rewrite <- (take_drop_middle _ _ _ Hk).
  rewrite reportFirstWorking_first; [done| |done].
  apply Forall_lookup. intros j rj Hj.
  apply lookup_take_Some in Hj as [Hj Hlt].
  apply (Hothers j); [lia|done].
Qed.

Lemma first_match_reporter_witness :
  launched (FileApprover.verify (getDefaultNamer process0) (StringWriter "hello" ".txt")
              diffTool
              (withDefaults process0
                 (setFrontLoadedReporters (defaults process0)
                    [mkReporter "gui" false; mkReporter "ci" false]))).2 =
  [mkLaunch diffTool "tests/Suite.case.received.txt" "tests/Suite.case.approved.txt"].
Proof.
  apply (first_match_reporter (getDefaultNamer process0) (StringWriter "hello" ".txt")
           diffTool
           (withDefaults process0
              (setFrontLoadedReporters (defaults process0)
                 [mkReporter "gui" false; mkReporter "ci" false]))
           2%nat diffTool).
  - reflexivity.
  - reflexivity.
  - intros [|[|[|j]]] rj Hj Hl; try done; by injection Hl as <-.
  - vm_compute. discriminate.
Defined.

(** ** Scrubbers *)














Section Engine_policy.
Variable policy : MatchPolicy.









End Engine_policy.



(** Digits: a run of digits gives way to one placeholder, and the
    placeholder [#] cannot take part in a match while [0] can, and any
    character can take part in a match of the pattern that matches any
    character. *)
Example digits_scenario :
  createRegexScrubber longestMatch (Plus (Range "0" "9")) "#" "id 42, 7" = "id #, #" ∧
  placeholderSafe (Plus (Range "0" "9")) "#" = true ∧
  placeholderSafe (Plus (Range "0" "9")) "0" = false ∧
  placeholderSafe AnyChar "xy" = false ∧
  placeholderSafe (Star (Chr "x")) "-" = false.
Proof. repeat split; by vm_compute. Qed.

(** ** Scenarios *)

(** No baseline yet: the verification fails, the received file is created,
    the approved file stays absent and the diff tool is launched once. *)
Example first_run_scenario :
  (verify "hello" defaultOptions process0).1 =
    Raises (ApprovalMismatch "tests/Suite.case.received.txt"
                             "tests/Suite.case.approved.txt") ∧
  files (verify "hello" defaultOptions process0).2
    !! "tests/Suite.case.received.txt" = Some "hello" ∧
  files (verify "hello" defaultOptions process0).2
    !! "tests/Suite.case.approved.txt" = None ∧
  launched (verify "hello" defaultOptions process0).2 =
    [mkLaunch diffTool "tests/Suite.case.received.txt" "tests/Suite.case.approved.txt"].
Proof. repeat split; by vm_compute. Qed.

(** The scrubber removes the timestamp and the rest still differs from the
    baseline: the verification fails. *)
Example timestamp_scenario :
  scrub scenarioOptions scenarioRaw = "<TIME>:X" ∧
  (verify scenarioRaw scenarioOptions scenarioProcess).1 =
    Raises (ApprovalMismatch "tests/Suite.case.received.txt"
                             "tests/Suite.case.approved.txt") ∧
  files (verify scenarioRaw scenarioOptions scenarioProcess).2
    !! "tests/Suite.case.approved.txt" = Some "X".
Proof. repeat split; by vm_compute. Qed.

(** Under a subdirectory override the baseline moves and comes back. *)
Example subdirectory_scenario :
  approvedPathOf (useApprovalsSubdirectory_default process0).2 defaultOptions =
    "tests/approval_tests/Suite.case.approved.txt" ∧
  approvedPathOf
    (dispose (useApprovalsSubdirectory_default process0).1
             (useApprovalsSubdirectory_default process0).2) defaultOptions =
    "tests/Suite.case.approved.txt".
Proof. split; by vm_compute. Qed.


(** * Further properties of [TApprovals] *)

(** ** verify and the scrubber *)

(** X1: two texts that the scrubber of the options maps to the same text
    are one verification: same completion, same files, same tools launched. *)
Theorem verify_scrub_congruence contents1 contents2 options st :
  scrub options contents1 = scrub options contents2 ->
  verify contents1 options st = verify contents2 options st.
Proof. intros Hs. unfold verify. by rewrite Hs. Qed.

Lemma verify_scrub_congruence_witness :
  verify scenarioRaw scenarioOptions scenarioProcess =
  verify "<TIME>:X" scenarioOptions scenarioProcess.
Proof.
  apply (verify_scrub_congruence scenarioRaw "<TIME>:X" scenarioOptions scenarioProcess).
  vm_compute. reflexivity.
Defined.

(** ** verifyExceptionMessage and its placeholder *)

(** X5: a function that throws a [std::exception] whose [what()] is the
    placeholder text cannot be told from one that returns: when both leave
    the same process behind, [verifyExceptionMessage] does the same on
    both. *)
Theorem verifyExceptionMessage_placeholder_ambiguous f g options st st' :
  f st = (ThrewStd "*** no exception thrown ***", st') ->
  g st = (Returned, st') ->
  verifyExceptionMessage f options st = verifyExceptionMessage g options st.
Proof.
  intros Hf Hg. unfold verifyExceptionMessage. by rewrite Hf, Hg.
Qed.

Lemma verifyExceptionMessage_placeholder_ambiguous_witness :
  verifyExceptionMessage (fun st => (ThrewStd "*** no exception thrown ***", st))
    defaultOptions process0 =
  verifyExceptionMessage (fun st => (Returned, st)) defaultOptions process0.
Proof.
  apply (verifyExceptionMessage_placeholder_ambiguous
           (fun st => (ThrewStd "*** no exception thrown ***", st))
           (fun st => (Returned, st)) defaultOptions process0 process0);
    reflexivity.
Defined.

(** ** The loop of verifyAll *)

Section Loop.
Context {T C : Type} (converter : Converter T C).

Lemma verifyAll_iter_streamed header range captured options st :
  verifyAll_iter header range converter captured options st =
  verify (streamed header range converter captured) options st.
Proof.
  unfold verifyAll_iter, streamed.
  by destruct (forEach converter range _ captured).
Qed.



End Loop.


(** ** The text of a vector *)

Lemma split_at_newline t1 : forall t2 r1 r2,
  hasNewline t1 = false -> hasNewline t2 = false ->
  t1 +:+ newline +:+ r1 = t2 +:+ newline +:+ r2 ->
  t1 = t2 ∧ r1 = r2.
Proof.
  unfold hasNewline.
  induction t1 as [|c1 t1 IH]; intros [|c2 t2] r1 r2 H1 H2 Heq.
  - split; [done|]. by injection Heq.
  - injection Heq as Hc _. cbn in H2. by rewrite decide_True in H2.
  - injection Heq as Hc _. cbn in H1. by rewrite decide_True in H1.
  - rewrite !append_String in Heq. injection Heq as -> Heq.
    cbn in H1, H2. destruct (decide (Ascii.ascii_of_nat 10 = c2)); [done|].
    by destruct (IH t2 r1 r2 H1 H2 Heq) as [-> ->].
Qed.

Section VectorText.
Context {T : Type} (formatInt : Z -> string) (toString : T -> string).

Lemma verifyAll_streamed header list options st :
  verifyAll formatInt toString header list options st =
  verify (streamed header list (indexedConverter formatInt toString) 0) options st.
Proof. apply verifyAll_iter_streamed. Qed.

(** Within the range of [int] the stream holds the header block and the
    numbered lines. *)
Lemma streamed_renderAll header list :
  Z.of_nat (length list) <= INT_MAX ->
  streamed header list (indexedConverter formatInt toString) 0 =
  renderAll formatInt toString header list.
Proof.
  intros Hlen. unfold streamed, renderAll, indexedConverter.
  rewrite (forEach_renderElements formatInt toString list _ 0 Hlen).
  by case_decide.
Qed.

Lemma renderElements_app xs : forall ys i,
  renderElements formatInt toString i (xs ++ ys) =
  renderElements formatInt toString i xs +:+ renderElements formatInt toString (i + length xs) ys.
Proof.
  induction xs as [|x xs IH]; intros ys i; simpl.
  - by rewrite Nat.add_0_r.
  - rewrite IH, !append_assoc. by replace (S i + length xs)%nat with (i + S (length xs))%nat by lia.
Qed.

Lemma renderElements_inj xs : forall ys i,
  Forall (fun e => hasNewline (toString e) = false) xs ->
  Forall (fun e => hasNewline (toString e) = false) ys ->
  renderElements formatInt toString i xs = renderElements formatInt toString i ys ->
  map toString xs = map toString ys.
Proof.
  induction xs as [|x xs IH]; intros [|y ys] i Hxs Hys Heq; simpl in *.
  - done.
  - discriminate.
  - discriminate.
  - apply Forall_cons in Hxs as [Hx Hxs]. apply Forall_cons in Hys as [Hy Hys].
    do 3 apply (inj (String.app _)) in Heq.
    destruct (split_at_newline _ _ _ _ Hx Hy Heq) as [-> Hrest].
    f_equal. by apply (IH ys (S i)).
Qed.

(** X3: elements added at the end of a vector add lines at the end of the text:
    what [verifyAll] verifies for [xs ++ ys] is what it verifies for [xs]
    followed by the lines of [ys], numbered on from the size of [xs], each
    index as the stream writes an [int]. *)
Theorem verifyAll_append header xs ys options st :
  Z.of_nat (length (xs ++ ys)) <= INT_MAX ->
  verifyAll formatInt toString header (xs ++ ys) options st =
  verify (streamed header xs (indexedConverter formatInt toString) 0 +:+
          renderElements formatInt toString (length xs) ys) options st.
Proof.
  intros Hlen. rewrite verifyAll_streamed. f_equal.
  assert (Z.of_nat (length xs) <= INT_MAX) as Hxs
    by (rewrite length_app in Hlen; lia).
  rewrite !streamed_renderAll by done.
  unfold renderAll. by rewrite renderElements_app, append_assoc.
Qed.

(** X4: the text pins down the elements: two vectors under the same header
    whose elements print without a line break, and for which [verifyAll]
    builds the same text, print the same element by element. *)
Theorem verifyAll_text_injective header xs ys :
  Z.of_nat (length xs) <= INT_MAX ->
  Z.of_nat (length ys) <= INT_MAX ->
  Forall (fun e => hasNewline (toString e) = false) xs ->
  Forall (fun e => hasNewline (toString e) = false) ys ->
  streamed header xs (indexedConverter formatInt toString) 0 =
    streamed header ys (indexedConverter formatInt toString) 0 ->
  map toString xs = map toString ys.
Proof.
  intros Hx Hy Hxs Hys Heq.
  rewrite !streamed_renderAll in Heq by done.
  unfold renderAll in Heq. apply (inj (String.app _)) in Heq.
  by apply (renderElements_inj xs ys 0%nat).
Qed.

End VectorText.

Lemma verifyAll_append_witness :
  verifyAll classicInt (fun s : string => s) "" (["a"] ++ ["b"]) defaultOptions process0 =
  verify (("[0] = a" +:+ newline) +:+ "[1] = b" +:+ newline) defaultOptions process0.
Proof.
  apply (verifyAll_append classicInt (fun s : string => s) "" ["a"] ["b"]
           defaultOptions process0).
  vm_compute. discriminate.
Defined.

Lemma verifyAll_text_injective_witness :
  map (fun z : Z => pretty (Z.abs z)) [1; -2] = map (fun z : Z => pretty (Z.abs z)) [-1; 2].
Proof.
  apply (verifyAll_text_injective classicInt (fun z : Z => pretty (Z.abs z))
           "totals" [1; -2] [-1; 2]).
  - vm_compute. discriminate.
  - vm_compute. discriminate.
  - repeat constructor.
  - repeat constructor.
  - vm_compute. reflexivity.
Defined.

(** The line break matters: an element that prints a line break and the
    next index imitates two elements. *)
Example verifyAll_text_collision :
  streamed "" ["a" +:+ newline +:+ "[1] = b"]
    (indexedConverter classicInt (fun s : string => s)) 0 =
  streamed "" ["a"; "b"] (indexedConverter classicInt (fun s : string => s)) 0.
Proof. reflexivity. Qed.
